(** * Preset configurations of chirp ([chirp/configs/presets.py])

    A shallow embedding of the preset builders and of the part of the
    configuration machinery they rest on: ordered dictionaries with
    in-place override, field references into the base config (handles,
    never copies), deferred call descriptors, the derivation of the
    frontend parameters and the two data pipelines. *)

From Stdlib Require Import ZArith List String Bool Lia PrimFloat.
Import ListNotations.

Set Warnings "-inexact-float,-register-all".

Local Open Scope string_scope.
Local Open Scope Z_scope.

(** ** Exceptions and the error monad *)

Inductive exn : Type :=
| UnknownFieldError (field : string)
| ZeroDivisionError
| Unsupported
| ValueError (msg : string).

Inductive result (A : Type) : Type :=
| Ok (a : A)
| Raise (e : exn).

Arguments Ok {A} a.
Arguments Raise {A} e.

Definition bind {A B : Type} (m : result A) (k : A -> result B) : result B :=
  match m with
  | Ok a => k a
  | Raise e => Raise e
  end.

Notation "x <- m ;; k" := (bind m (fun x => k))
  (at level 61, m at next level, right associativity).

(** ** Ordered dictionaries

    A Python [dict] (and the field table of a [ConfigDict]) keeps its keys
    in insertion order; assigning to a key that exists replaces the value
    where it stands, assigning to a new key appends it. *)

Section Dict.
Context {A : Type}.

Fixpoint lookup (k : string) (d : list (string * A)) : option A :=
  match d with
  | [] => None
  | (k', v) :: d' => if String.eqb k k' then Some v else lookup k d'
  end.

(** [self[k] = v] *)
Fixpoint setitem (k : string) (v : A) (d : list (string * A)) : list (string * A) :=
  match d with
  | [] => [(k, v)]
  | (k', v') :: d' =>
      if String.eqb k k' then (k, v) :: d' else (k', v') :: setitem k v d'
  end.

(** Modelled from the spec: [ConfigDict.update] of ml_collections, which
    is not part of the sources.  The pairs of [other] are applied in
    order on top of [self]; a later pair shadows an earlier one, and a
    field that does not exist yet is created.  The type check the
    library runs when a field changes its type is outside the model. *)
Definition update (other self : list (string * A)) : list (string * A) :=
  fold_left (fun acc kv => setitem (fst kv) (snd kv) acc) other self.

(** The binding that wins among a sequence of overrides: the last one. *)
Fixpoint last_binding (k : string) (kvs : list (string * A)) : option A :=
  match kvs with
  | [] => None
  | (k', v) :: rest =>
      match last_binding k rest with
      | Some w => Some w
      | None => if String.eqb k k' then Some v else None
      end
  end.

Definition keys (d : list (string * A)) : list string := map fst d.
End Dict.

(** ** Values *)

Inductive literal : Type :=
| LInt (z : Z)
| LFloat (x : float)
| LBool (b : bool)
| LStr (s : string).

(** A field reference: the handle [config.get_ref(name)] gives, or an
    expression built from handles with the operators of the source
    ([//] and [*]).  It names the field, it holds no value. *)
Inductive FieldReference : Type :=
| Ref (field : string)
| Lit (z : Z)
| FloorDiv (a b : FieldReference)
| Mul (a b : FieldReference).

Inductive value : Type :=
| VLit (l : literal)
| VRef (r : FieldReference)
| VTuple (vs : list value)
| VList (vs : list value)
| VCall (callable_ : string) (kwargs : list (string * value)).

(** The base config maps field names to plain values; the configs derived
    from it map them to values that may refer back to the base. *)
Abbreviation BaseConfig := (list (string * literal)).
Abbreviation ConfigDict := (list (string * value)).

Definition VInt (z : Z) : value := VLit (LInt z).
Definition VFloat (x : float) : value := VLit (LFloat x).
Definition VBool (b : bool) : value := VLit (LBool b).
Definition VStr (s : string) : value := VLit (LStr s).

(** ** References into the base config *)

(** Modelled from the spec: [get_reference(node, field)], the library's
    [ConfigDict.get_ref]; it fails when the field is not defined on the
    node at the time of the call. *)
Definition get_ref (config : BaseConfig) (field : string) : result FieldReference :=
  match lookup field config with
  | Some _ => Ok (Ref field)
  | None => Raise (UnknownFieldError field)
  end.

(** Python's [//] and [*] on [int]: the quotient is rounded down, a zero
    divisor raises.  Operands of another type (floats, strings) are
    outside the arithmetic modelled here and end in [Unsupported]. *)
Definition py_floordiv (x y : literal) : result literal :=
  match x, y with
  | LInt a, LInt b => if b =? 0 then Raise ZeroDivisionError else Ok (LInt (a / b))
  | _, _ => Raise Unsupported
  end.

Definition py_mul (x y : literal) : result literal :=
  match x, y with
  | LInt a, LInt b => Ok (LInt (a * b))
  | _, _ => Raise Unsupported
  end.

(** Modelled from the spec: the value of a reference, the library's
    [FieldReference.get]: the target field is read in the current state
    of the base config, then the operators of the reference are applied. *)
Fixpoint get (config : BaseConfig) (r : FieldReference) : result literal :=
  match r with
  | Ref field =>
      match lookup field config with
      | Some l => Ok l
      | None => Raise (UnknownFieldError field)
      end
  | Lit z => Ok (LInt z)
  | FloorDiv a b =>
      x <- get config a ;; y <- get config b ;; py_floordiv x y
  | Mul a b =>
      x <- get config a ;; y <- get config b ;; py_mul x y
  end.

(** Modelled from the spec: the integer a reference is compared as.  What
    [kernel_size <= 256] does on a field reference is decided by the
    library; following the deriver of the spec, which compares the kernel
    size as a number, the comparison is taken on the integer the reference
    stands for when it runs. *)
Definition get_int (config : BaseConfig) (r : FieldReference) : result Z :=
  x <- get config r ;;
  match x with
  | LInt z => Ok z
  | _ => Raise Unsupported
  end.

(** Modelled from the spec: [resolve], the pass of [config_utils.parse_config]
    that replaces every reference by the value of its target and keeps the
    shape of everything else; a deferred call has its arguments resolved
    and is not invoked. *)
Fixpoint resolve (config : BaseConfig) (v : value) : result value :=
  let fix resolve_list (vs : list value) : result (list value) :=
    match vs with
    | [] => Ok []
    | x :: xs =>
        x' <- resolve config x ;; xs' <- resolve_list xs ;; Ok (x' :: xs')
    end in
  let fix resolve_kwargs (kw : list (string * value)) : result (list (string * value)) :=
    match kw with
    | [] => Ok []
    | (k, x) :: rest =>
        x' <- resolve config x ;; rest' <- resolve_kwargs rest ;; Ok ((k, x') :: rest')
    end in
  match v with
  | VLit l => Ok (VLit l)
  | VRef r => l <- get config r ;; Ok (VLit l)
  | VTuple vs => vs' <- resolve_list vs ;; Ok (VTuple vs')
  | VList vs => vs' <- resolve_list vs ;; Ok (VList vs')
  | VCall c kw => kw' <- resolve_kwargs kw ;; Ok (VCall c kw')
  end.

(** The same over a derived config, field by field, in the order of the
    fields. *)
Fixpoint resolve_config (config : BaseConfig) (d : ConfigDict) : result ConfigDict :=
  match d with
  | [] => Ok []
  | (k, v) :: rest =>
      v' <- resolve config v ;; rest' <- resolve_config config rest ;; Ok ((k, v') :: rest')
  end.

(** Modelled from the spec: [deferred_call], chirp's
    [config_utils.callable_config] (imported as [_c]): it records the name
    of what is to be constructed and the keyword arguments, and constructs
    nothing. *)
Definition callable_config (callable_ : string) (kwargs : list (string * value)) : value :=
  VCall callable_ kwargs.

(** ** The presets *)

(** [get_base_config]: the common defaults, then the keyword arguments
    laid over them. *)
Definition base_defaults : BaseConfig :=
  setitem "tfds_data_dir" (LStr EmptyString)
  (setitem "pad_mask" (LBool false)
  (setitem "num_train_steps" (LInt 1000000)
  (setitem "target_class_list" (LStr "xenocanto")
  (setitem "add_taxonomic_labels" (LBool true)
  (setitem "batch_size" (LInt 64)
  (setitem "num_channels" (LInt 160)
  (setitem "frame_rate_hz" (LInt 100)
  (setitem "eval_window_size_s" (LInt 5)
  (setitem "train_window_size_s" (LInt 5)
  (setitem "sample_rate_hz" (LInt 32000) [])))))))))).

Definition get_base_config (kwargs : BaseConfig) : BaseConfig :=
  update kwargs base_defaults.

(** [get_base_init_config], with its keyword arguments *)
Definition get_base_init_config (config : BaseConfig) (kwargs : ConfigDict)
  : result ConfigDict :=
  train_window_size_s <- get_ref config "train_window_size_s" ;;
  sample_rate_hz <- get_ref config "sample_rate_hz" ;;
  target_class_list <- get_ref config "target_class_list" ;;
  Ok (update kwargs
       (setitem "target_class_list" (VRef target_class_list)
       (setitem "rng_seed" (VInt 0)
       (setitem "learning_rate" (VFloat 0.0001)
       (setitem "input_shape"
          (VTuple [VRef (Mul train_window_size_s sample_rate_hz)]) []))))).

(** [get_base_train_config], with its keyword arguments *)
Definition get_base_train_config (config : BaseConfig) (kwargs : ConfigDict)
  : result ConfigDict :=
  num_train_steps <- get_ref config "num_train_steps" ;;
  Ok (update kwargs
       (setitem "checkpoint_every_steps" (VInt 25000)
       (setitem "log_every_steps" (VInt 250)
       (setitem "num_train_steps" (VRef num_train_steps) [])))).

(** [get_base_eval_config], with its keyword arguments *)
Definition get_base_eval_config (config : BaseConfig) (kwargs : ConfigDict)
  : result ConfigDict :=
  num_train_steps <- get_ref config "num_train_steps" ;;
  Ok (update kwargs
       (setitem "tflite_export" (VBool true)
       (setitem "eval_steps_per_checkpoint" (VInt 1000)
       (setitem "num_train_steps" (VRef num_train_steps) [])))).

(** The message of the [ValueError] of [get_pcen_melspec_config]: the
    string literal of the source, which is not an f-string. *)
Definition large_kernel_message : string :=
  "Large kernel {kernel_size}; please define nfft.".

(** The chain of comparisons of [get_pcen_melspec_config] (lines 116-127),
    on the integer the kernel size stands for. *)
Definition select_nfft (kernel_size : Z) : result Z :=
  if kernel_size <=? 256 then Ok 256
  else if (256 <? kernel_size) && (kernel_size <=? 512) then Ok 512
  else if (512 <? kernel_size) && (kernel_size <=? 1024) then Ok 1024
  else if (1024 <? kernel_size) && (kernel_size <=? 2048) then Ok 2048
  else if (2048 <? kernel_size) && (kernel_size <=? 4096) then Ok 4096
  else Raise (ValueError large_kernel_message).

(** [get_pcen_melspec_config(config)]; the comparisons of the kernel size
    go through [get_int]. *)
Definition get_pcen_melspec_config (config : BaseConfig) : result value :=
  sample_rate_hz <- get_ref config "sample_rate_hz" ;;
  frame_rate_hz <- get_ref config "frame_rate_hz" ;;
  let frontend_stride := FloorDiv sample_rate_hz frame_rate_hz in
  let kernel_size := Mul (Lit 2) frontend_stride in
  k <- get_int config kernel_size ;;
  nfft <- select_nfft k ;;
  features <- get_ref config "num_channels" ;;
  sample_rate <- get_ref config "sample_rate_hz" ;;
  Ok (callable_config "frontend.MelSpectrogram"
        [ ("features", VRef features);
          ("stride", VRef frontend_stride);
          ("kernel_size", VRef kernel_size);
          ("nfft", VInt nfft);
          ("sample_rate", VRef sample_rate);
          ("freq_range", VTuple [VInt 60; VInt 10000]);
          ("scaling_config",
            callable_config "frontend.PCENScalingConfig" [("conv_width", VInt 256)]) ]).

(** [get_supervised_train_pipeline(config, mixin_prob, train_dataset_dir)] *)
Definition get_supervised_train_pipeline
  (config : BaseConfig) (mixin_prob : float) (train_dataset_dir : string)
  : result ConfigDict :=
  target_class_list <- get_ref config "target_class_list" ;;
  add_taxonomic_labels <- get_ref config "add_taxonomic_labels" ;;
  pad_size <- get_ref config "train_window_size_s" ;;
  add_mask <- get_ref config "pad_mask" ;;
  window_size <- get_ref config "train_window_size_s" ;;
  batch_size <- get_ref config "batch_size" ;;
  let pipeline :=
    callable_config "pipeline.Pipeline"
      [ ("ops", VList
          [ callable_config "pipeline.Shuffle" [("shuffle_buffer_size", VInt 512)];
            callable_config "pipeline.OnlyJaxTypes" [];
            callable_config "pipeline.ConvertBirdTaxonomyLabels"
              [ ("source_namespace", VStr "ebird2021");
                ("target_class_list", VRef target_class_list);
                ("add_taxonomic_labels", VRef add_taxonomic_labels) ];
            callable_config "pipeline.MixAudio" [("mixin_prob", VFloat mixin_prob)];
            callable_config "pipeline.Pad"
              [ ("pad_size", VRef pad_size); ("add_mask", VRef add_mask) ];
            callable_config "pipeline.RandomSlice" [("window_size", VRef window_size)];
            callable_config "pipeline.Batch"
              [ ("batch_size", VRef batch_size);
                ("split_across_devices", VBool true) ];
            callable_config "pipeline.RandomNormalizeAudio"
              [ ("min_gain", VFloat 0.15); ("max_gain", VFloat 0.25) ];
            callable_config "pipeline.Repeat" [] ]) ] in
  tfds_data_dir <- get_ref config "tfds_data_dir" ;;
  Ok (setitem "dataset_directory" (VStr train_dataset_dir)
     (setitem "tfds_data_dir" (VRef tfds_data_dir)
     (setitem "split" (VStr "train")
     (setitem "pipeline" pipeline [])))).

(** [get_supervised_eval_pipeline(config, eval_dataset_dir)] *)
Definition get_supervised_eval_pipeline
  (config : BaseConfig) (eval_dataset_dir : string) : result ConfigDict :=
  target_class_list <- get_ref config "target_class_list" ;;
  add_taxonomic_labels <- get_ref config "add_taxonomic_labels" ;;
  pad_size <- get_ref config "eval_window_size_s" ;;
  add_mask <- get_ref config "pad_mask" ;;
  window_size <- get_ref config "eval_window_size_s" ;;
  batch_size <- get_ref config "batch_size" ;;
  let pipeline :=
    callable_config "pipeline.Pipeline"
      [ ("ops", VList
          [ callable_config "pipeline.OnlyJaxTypes" [];
            callable_config "pipeline.ConvertBirdTaxonomyLabels"
              [ ("source_namespace", VStr "ebird2021");
                ("target_class_list", VRef target_class_list);
                ("add_taxonomic_labels", VRef add_taxonomic_labels) ];
            callable_config "pipeline.Pad"
              [ ("pad_size", VRef pad_size);
                ("random", VBool false);
                ("add_mask", VRef add_mask) ];
            callable_config "pipeline.Slice"
              [ ("window_size", VRef window_size); ("start", VFloat 0.0) ];
            callable_config "pipeline.Batch"
              [ ("batch_size", VRef batch_size);
                ("split_across_devices", VBool true) ];
            callable_config "pipeline.NormalizeAudio" [("target_gain", VFloat 0.2)] ]) ] in
  tfds_data_dir <- get_ref config "tfds_data_dir" ;;
  Ok (setitem "dataset_directory" (VStr eval_dataset_dir)
     (setitem "tfds_data_dir" (VRef tfds_data_dir)
     (setitem "split" (VStr "train")
     (setitem "pipeline" pipeline [])))).

(** ** Reading a pipeline spec and a call descriptor *)

Definition stage_kind (v : value) : string :=
  match v with
  | VCall c _ => c
  | _ => EmptyString
  end.

Definition call_arg (name : string) (v : value) : option value :=
  match v with
  | VCall _ kwargs => lookup name kwargs
  | _ => None
  end.

(** The stage list of a dataset config: the [ops] of its [pipeline]. *)
Definition pipeline_ops (d : ConfigDict) : list value :=
  match lookup "pipeline" d with
  | Some p =>
      match call_arg "ops" p with
      | Some (VList ops) => ops
      | _ => []
      end
  | None => []
  end.

Fixpoint stage_index (kind : string) (ops : list value) : option nat :=
  match ops with
  | [] => None
  | s :: rest =>
      if String.eqb (stage_kind s) kind then Some O
      else option_map S (stage_index kind rest)
  end.

Definition stage (kind : string) (ops : list value) : option value :=
  find (fun s => String.eqb (stage_kind s) kind) ops.

Definition stage_arg (kind name : string) (d : ConfigDict) : option value :=
  match stage kind (pipeline_ops d) with
  | Some s => call_arg name s
  | None => None
  end.

(** The integer an argument of a descriptor resolves to. *)
Definition int_arg (config : BaseConfig) (name : string) (d : value) : option Z :=
  match call_arg name d with
  | Some v =>
      match resolve config v with
      | Ok (VLit (LInt z)) => Some z
      | _ => None
      end
  | None => None
  end.

(** Stride, kernel size and transform size of the frontend descriptor. *)
Definition frontend_params (config : BaseConfig)
  : result (option Z * option Z * option Z) :=
  d <- get_pcen_melspec_config config ;;
  Ok (int_arg config "stride" d, int_arg config "kernel_size" d, int_arg config "nfft" d).

(** The transform sizes the deriver chooses from. *)
Definition ladder : list Z := [256; 512; 1024; 2048; 4096].

(** The fields every base config has: those of the defaults. *)
Definition base_field (f : string) : bool :=
  match lookup f base_defaults with Some _ => true | None => false end.

(** A field of a derived config, resolved against the base config. *)
Definition resolve_field (config : BaseConfig) (d : ConfigDict) (name : string)
  : result value :=
  match lookup name d with
  | Some v => resolve config v
  | None => Raise (UnknownFieldError name)
  end.

(** Whether a field is defined on a config. *)
Definition defined (config : BaseConfig) (f : string) : bool :=
  match lookup f config with Some _ => true | None => false end.

(** The fields of the base config each pipeline builder takes a reference
    to, in the order of the calls of [get_ref]. *)
Definition train_pipeline_fields : list string :=
  [ "target_class_list"; "add_taxonomic_labels"; "train_window_size_s"; "pad_mask";
    "batch_size"; "tfds_data_dir" ].

Definition eval_pipeline_fields : list string :=
  [ "target_class_list"; "add_taxonomic_labels"; "eval_window_size_s"; "pad_mask";
    "batch_size"; "tfds_data_dir" ].

(** A value that holds no reference any more. *)
Fixpoint ref_free (v : value) : bool :=
  match v with
  | VLit _ => true
  | VRef _ => false
  | VTuple vs => forallb ref_free vs
  | VList vs => forallb ref_free vs
  | VCall _ kw => forallb (fun kv => match kv with (_, x) => ref_free x end) kw
  end.

Definition config_ref_free (d : ConfigDict) : bool :=
  forallb (fun kv => ref_free (snd kv)) d.

(** * Properties *)

(** ** Dictionaries *)

Section DictFacts.
Context {A : Type}.
Implicit Types (d other : list (string * A)) (k : string) (v : A).

Lemma lookup_setitem k k' v d :
  lookup k (setitem k' v d) = if String.eqb k k' then Some v else lookup k d.
Proof.
  induction d as [|[k0 v0] d IH]; simpl.
  - destruct (String.eqb k k'); reflexivity.
  - destruct (String.eqb_spec k' k0) as [->|Hne]; simpl.
    + destruct (String.eqb k k0); reflexivity.
    + rewrite IH.
      destruct (String.eqb_spec k k0) as [->|Hne'].
      * destruct (String.eqb_spec k0 k') as [E|_]; [congruence|reflexivity].
      * reflexivity.
Qed.

Lemma lookup_update k other : forall d,
  lookup k (update other d) =
    match last_binding k other with
    | Some v => Some v
    | None => lookup k d
    end.
Proof.
  unfold update.
  induction other as [|[k' v'] other IH]; intros d; simpl.
  - reflexivity.
  - rewrite IH, lookup_setitem.
    destruct (last_binding k other); [reflexivity|].
    destruct (String.eqb k k'); reflexivity.
Qed.

Lemma last_binding_In k v other :
  last_binding k other = Some v -> In (k, v) other.
Proof.
  induction other as [|[k' v'] other IH]; simpl; [discriminate|].
  destruct (last_binding k other) as [w|].
  - intros E. right. apply IH. exact E.
  - destruct (String.eqb_spec k k') as [->|_]; [|discriminate].
    intros E. injection E as ->. left. reflexivity.
Qed.

Lemma lookup_update_defined k other d :
  lookup k d <> None -> lookup k (update other d) <> None.
Proof.
  intros H. rewrite lookup_update.
  destruct (last_binding k other); [discriminate|exact H].
Qed.
End DictFacts.

(** ** The base config *)

Lemma base_lookup (kwargs : BaseConfig) (f : string) :
  base_field f = true -> exists l, lookup f (get_base_config kwargs) = Some l.
Proof.
  unfold base_field, get_base_config. intros H.
  destruct (lookup f (update kwargs base_defaults)) as [l|] eqn:E.
  - exists l. reflexivity.
  - exfalso. revert E. apply lookup_update_defined.
    destruct (lookup f base_defaults); [discriminate|discriminate H].
Qed.

Lemma get_ref_defined (config : BaseConfig) (f : string) (l : literal) :
  lookup f config = Some l -> get_ref config f = Ok (Ref f).
Proof. unfold get_ref. intros ->. reflexivity. Qed.

Lemma get_ref_base (kwargs : BaseConfig) (f : string) :
  base_field f = true -> get_ref (get_base_config kwargs) f = Ok (Ref f).
Proof.
  intros H. destruct (base_lookup kwargs f H) as [l Hl].
  exact (get_ref_defined _ _ _ Hl).
Qed.

(** C8: an override of the base config lands in the config whatever the
    field: the value the keyword arguments give a field (the last one, if
    the field is given more than once) is the value of the field in the
    config that is returned, whether the field is one of the defaults
    (its value is replaced) or not (the field is added). *)
Theorem override_adds_or_replaces (kwargs : BaseConfig) (k : string) (v : literal) :
  last_binding k kwargs = Some v ->
  lookup k (get_base_config kwargs) = Some v
  /\ (base_field k = false -> In k (keys (get_base_config kwargs)) /\ ~ In k (keys base_defaults)).
Proof.
  intros H. unfold get_base_config.
  assert (L : lookup k (update kwargs base_defaults) = Some v)
    by (rewrite lookup_update, H; reflexivity).
  split; [exact L|].
  intros Hb. split.
  - clear -L. induction (update kwargs base_defaults) as [|[k0 v0] d IH]; simpl in *.
    + discriminate.
    + destruct (String.eqb_spec k k0) as [->|_]; [left; reflexivity|right; auto].
  - unfold base_field in Hb. clear -Hb.
    induction base_defaults as [|[k0 v0] d IH]; simpl in *; [tauto|].
    destruct (String.eqb_spec k k0) as [->|Hne]; [discriminate|].
    intros [E|HIn]; [congruence|]. apply IH; assumption.
Qed.

Lemma override_adds_or_replaces_witness :
  lookup "batch_size" (get_base_config [("batch_size", LInt 32); ("seed", LInt 7); ("batch_size", LInt 16)])
    = Some (LInt 16)
  /\ lookup "seed" (get_base_config [("batch_size", LInt 32); ("seed", LInt 7); ("batch_size", LInt 16)])
    = Some (LInt 7).
Proof.
  split.
  - apply (override_adds_or_replaces _ "batch_size" (LInt 16)). reflexivity.
  - apply (override_adds_or_replaces _ "seed" (LInt 7)). reflexivity.
Defined.

(** ** The frontend parameters *)

Ltac least_of_ladder n :=
  exists n; split; [reflexivity|]; split; [simpl; tauto|]; split; [lia|];
  intros m Hm Hle; simpl in Hm; intuition lia.

Lemma select_nfft_small (k : Z) :
  k <= 4096 ->
  exists n, select_nfft k = Ok n /\ In n ladder /\ k <= n
            /\ forall m, In m ladder -> k <= m -> n <= m.
Proof.
  intros Hk. unfold select_nfft, ladder.
  destruct (Z.leb_spec k 256); [least_of_ladder 256|].
  destruct (Z.leb_spec k 512); destruct (Z.ltb_spec 256 k); try lia;
    cbn [andb]; [least_of_ladder 512|].
  destruct (Z.leb_spec k 1024); destruct (Z.ltb_spec 512 k); try lia;
    cbn [andb]; [least_of_ladder 1024|].
  destruct (Z.leb_spec k 2048); destruct (Z.ltb_spec 1024 k); try lia;
    cbn [andb]; [least_of_ladder 2048|].
  destruct (Z.leb_spec k 4096); destruct (Z.ltb_spec 2048 k); try lia;
    cbn [andb]. least_of_ladder 4096.
Qed.

Lemma select_nfft_large (k : Z) :
  4096 < k -> select_nfft k = Raise (ValueError large_kernel_message).
Proof.
  intros Hk. unfold select_nfft.
  repeat match goal with
         | |- context [?a <=? ?b] => destruct (Z.leb_spec a b); try lia
         | |- context [?a <? ?b] => destruct (Z.ltb_spec a b); try lia
         end; reflexivity.
Qed.

(** What the deriver returns on a base config whose sample rate and frame
    rate are integers. *)
Lemma get_pcen_melspec_config_eq (kwargs : BaseConfig) (sr fr : Z) :
  lookup "sample_rate_hz" (get_base_config kwargs) = Some (LInt sr) ->
  lookup "frame_rate_hz" (get_base_config kwargs) = Some (LInt fr) ->
  fr <> 0 ->
  get_pcen_melspec_config (get_base_config kwargs) =
    nfft <- select_nfft (2 * (sr / fr)) ;;
    Ok (VCall "frontend.MelSpectrogram"
          [ ("features", VRef (Ref "num_channels"));
            ("stride", VRef (FloorDiv (Ref "sample_rate_hz") (Ref "frame_rate_hz")));
            ("kernel_size",
              VRef (Mul (Lit 2) (FloorDiv (Ref "sample_rate_hz") (Ref "frame_rate_hz"))));
            ("nfft", VInt nfft);
            ("sample_rate", VRef (Ref "sample_rate_hz"));
            ("freq_range", VTuple [VInt 60; VInt 10000]);
            ("scaling_config", VCall "frontend.PCENScalingConfig" [("conv_width", VInt 256)]) ]).
Proof.
  intros Hsr Hfr Hnz. unfold get_pcen_melspec_config.
  rewrite !(get_ref_base kwargs) by reflexivity.
  cbn [bind]. unfold get_int. cbn [get bind].
  rewrite Hsr, Hfr. cbn [bind py_floordiv].
  destruct (Z.eqb_spec fr 0) as [E|_]; [contradiction|].
  cbn [bind py_mul]. reflexivity.
Qed.

Lemma get_stride (config : BaseConfig) (sr fr : Z) :
  lookup "sample_rate_hz" config = Some (LInt sr) ->
  lookup "frame_rate_hz" config = Some (LInt fr) ->
  fr <> 0 ->
  get config (FloorDiv (Ref "sample_rate_hz") (Ref "frame_rate_hz")) = Ok (LInt (sr / fr)).
Proof.
  intros Hsr Hfr Hnz. cbn [get bind]. rewrite Hsr, Hfr. cbn [bind py_floordiv].
  destruct (Z.eqb_spec fr 0) as [E|_]; [contradiction|reflexivity].
Qed.

(** C1, as the code has it: the stride is the floor of the quotient and
    nothing checks that the division is exact or the stride positive.
    Whenever the frame rate is not zero and twice the stride is at most
    4096, the derivation succeeds, its stride argument is the reference
    [sample_rate_hz // frame_rate_hz] and it resolves to [sr / fr]. *)
Theorem stride_is_floor_division (kwargs : BaseConfig) (sr fr : Z) :
  lookup "sample_rate_hz" (get_base_config kwargs) = Some (LInt sr) ->
  lookup "frame_rate_hz" (get_base_config kwargs) = Some (LInt fr) ->
  fr <> 0 ->
  2 * (sr / fr) <= 4096 ->
  exists d,
    get_pcen_melspec_config (get_base_config kwargs) = Ok d
    /\ call_arg "stride" d
       = Some (VRef (FloorDiv (Ref "sample_rate_hz") (Ref "frame_rate_hz")))
    /\ int_arg (get_base_config kwargs) "stride" d = Some (sr / fr).
Proof.
  intros Hsr Hfr Hnz Hk.
  rewrite (get_pcen_melspec_config_eq kwargs sr fr Hsr Hfr Hnz).
  destruct (select_nfft_small _ Hk) as (n & -> & _).
  cbn [bind]. eexists. split; [reflexivity|]. split; [reflexivity|].
  unfold int_arg. cbn [call_arg lookup String.eqb Ascii.eqb Bool.eqb].
  cbn [resolve]. rewrite (get_stride _ sr fr Hsr Hfr Hnz). reflexivity.
Qed.

Lemma stride_is_floor_division_witness :
  exists d,
    get_pcen_melspec_config
      (get_base_config [("sample_rate_hz", LInt 1000); ("frame_rate_hz", LInt 3)]) = Ok d
    /\ call_arg "stride" d
       = Some (VRef (FloorDiv (Ref "sample_rate_hz") (Ref "frame_rate_hz")))
    /\ int_arg (get_base_config [("sample_rate_hz", LInt 1000); ("frame_rate_hz", LInt 3)])
         "stride" d = Some (1000 / 3).
Proof.
  apply (stride_is_floor_division
           [("sample_rate_hz", LInt 1000); ("frame_rate_hz", LInt 3)] 1000 3).
  - reflexivity.
  - reflexivity.
  - discriminate.
  - vm_compute. discriminate.
Defined.

(** C1, as the claim has it, fails: with a sample rate of 1000 and a frame
    rate of 3, which does not divide it, the derivation succeeds with the
    truncated stride 333; with a sample rate of 50 and a frame rate of 100
    it succeeds with the stride 0. *)
Lemma stride_truncates_silently :
  ~ (3 | 1000)
  /\ frontend_params
       (get_base_config [("sample_rate_hz", LInt 1000); ("frame_rate_hz", LInt 3)])
     = Ok (Some 333, Some 666, Some 1024)
  /\ frontend_params
       (get_base_config [("sample_rate_hz", LInt 50); ("frame_rate_hz", LInt 100)])
     = Ok (Some 0, Some 0, Some 256).
Proof.
  split; [|split; reflexivity].
  intros [q Hq]. lia.
Qed.

(** A kernel size above 4096 stops the derivation, always with the same
    message. *)
Lemma large_kernel_raises (kwargs : BaseConfig) (sr fr : Z) :
  lookup "sample_rate_hz" (get_base_config kwargs) = Some (LInt sr) ->
  lookup "frame_rate_hz" (get_base_config kwargs) = Some (LInt fr) ->
  fr <> 0 ->
  4096 < 2 * (sr / fr) ->
  get_pcen_melspec_config (get_base_config kwargs)
  = Raise (ValueError large_kernel_message).
Proof.
  intros Hsr Hfr Hnz Hk.
  rewrite (get_pcen_melspec_config_eq kwargs sr fr Hsr Hfr Hnz).
  rewrite (select_nfft_large _ Hk). reflexivity.
Qed.

(** C2, at a sample rate of 32000 and a frame rate of 10 (kernel size
    6400): the derivation stops with a [ValueError], and its message is
    the text of the source with the placeholder left as it is; the number
    6400 is nowhere in it, and a frame rate of 5 (kernel size 12800) gives
    the very same message. *)
Theorem large_kernel_message_has_no_size :
  get_pcen_melspec_config (get_base_config [("frame_rate_hz", LInt 10)])
  = Raise (ValueError "Large kernel {kernel_size}; please define nfft.")
  /\ get_int (get_base_config [("frame_rate_hz", LInt 10)])
       (Mul (Lit 2) (FloorDiv (Ref "sample_rate_hz") (Ref "frame_rate_hz"))) = Ok 6400
  /\ String.index 0 "6400" large_kernel_message = None
  /\ get_pcen_melspec_config (get_base_config [("frame_rate_hz", LInt 5)])
     = get_pcen_melspec_config (get_base_config [("frame_rate_hz", LInt 10)]).
Proof. repeat split; reflexivity. Qed.

(** C3: on a base config whose frame rate divides its sample rate, the
    derivation either returns a descriptor whose stride resolves to the
    exact quotient, whose kernel size resolves to twice the stride and
    whose transform size is the least member of the ladder that is at
    least the kernel size, or it raises, and then no member of the ladder
    reaches the kernel size.  The literal cases: 32000 at 100 and 16000 at
    50 both give (320, 640, 1024); a kernel size of 256 selects 256 and
    one of 257 selects 512. *)
Theorem transform_size_is_least_power_of_two :
  (forall (kwargs : BaseConfig) (sr fr : Z),
      lookup "sample_rate_hz" (get_base_config kwargs) = Some (LInt sr) ->
      lookup "frame_rate_hz" (get_base_config kwargs) = Some (LInt fr) ->
      fr <> 0 ->
      (fr | sr) ->
      match get_pcen_melspec_config (get_base_config kwargs) with
      | Ok d =>
          exists stride kernel_size nfft,
            int_arg (get_base_config kwargs) "stride" d = Some stride
            /\ int_arg (get_base_config kwargs) "kernel_size" d = Some kernel_size
            /\ call_arg "nfft" d = Some (VInt nfft)
            /\ stride * fr = sr
            /\ kernel_size = 2 * stride
            /\ In nfft ladder
            /\ kernel_size <= nfft
            /\ (forall m, In m ladder -> kernel_size <= m -> nfft <= m)
      | Raise _ => forall m, In m ladder -> m < 2 * (sr / fr)
      end)
  /\ frontend_params (get_base_config [("sample_rate_hz", LInt 32000); ("frame_rate_hz", LInt 100)])
     = Ok (Some 320, Some 640, Some 1024)
  /\ frontend_params (get_base_config [("sample_rate_hz", LInt 16000); ("frame_rate_hz", LInt 50)])
     = Ok (Some 320, Some 640, Some 1024)
  /\ select_nfft 256 = Ok 256
  /\ select_nfft 257 = Ok 512.
Proof.
  split; [|repeat split; reflexivity].
  intros kwargs sr fr Hsr Hfr Hnz Hdiv.
  rewrite (get_pcen_melspec_config_eq kwargs sr fr Hsr Hfr Hnz).
  destruct (Z_le_gt_dec (2 * (sr / fr)) 4096) as [Hk|Hk].
  - destruct (select_nfft_small _ Hk) as (n & -> & Hin & Hle & Hleast).
    cbn [bind]. exists (sr / fr), (2 * (sr / fr)), n.
    unfold int_arg. cbn [call_arg lookup String.eqb Ascii.eqb Bool.eqb].
    cbn [resolve get bind]. rewrite Hsr, Hfr. cbn [bind py_floordiv].
    destruct (Z.eqb_spec fr 0) as [E|_]; [contradiction|].
    cbn [bind py_mul].
    repeat split; auto.
    destruct Hdiv as [q ->]. rewrite Z.div_mul by assumption. reflexivity.
  - rewrite select_nfft_large by lia. cbn [bind].
    intros m Hm. simpl in Hm. intuition lia.
Qed.

Lemma transform_size_is_least_power_of_two_witness :
  match get_pcen_melspec_config (get_base_config [("sample_rate_hz", LInt 12800)]) with
  | Ok d =>
      exists stride kernel_size nfft,
        int_arg (get_base_config [("sample_rate_hz", LInt 12800)]) "stride" d = Some stride
        /\ int_arg (get_base_config [("sample_rate_hz", LInt 12800)]) "kernel_size" d
           = Some kernel_size
        /\ call_arg "nfft" d = Some (VInt nfft)
        /\ stride * 100 = 12800
        /\ kernel_size = 2 * stride
        /\ In nfft ladder
        /\ kernel_size <= nfft
        /\ (forall m, In m ladder -> kernel_size <= m -> nfft <= m)
  | Raise _ => forall m, In m ladder -> m < 2 * (12800 / 100)
  end.
Proof.
  apply (proj1 transform_size_is_least_power_of_two
           [("sample_rate_hz", LInt 12800)] 12800 100).
  - reflexivity.
  - reflexivity.
  - discriminate.
  - exists 128. reflexivity.
Defined.

(** C9: whatever the base config, a descriptor the derivation returns
    carries the frequency range (60, 10000). *)
Theorem freq_range_is_fixed (config : BaseConfig) (d : value) :
  get_pcen_melspec_config config = Ok d ->
  call_arg "freq_range" d = Some (VTuple [VInt 60; VInt 10000]).
Proof.
  unfold get_pcen_melspec_config.
  destruct (get_ref config "sample_rate_hz"); cbn [bind]; [|discriminate].
  destruct (get_ref config "frame_rate_hz"); cbn [bind]; [|discriminate].
  destruct (get_int config _); cbn [bind]; [|discriminate].
  destruct (select_nfft _); cbn [bind]; [|discriminate].
  destruct (get_ref config "num_channels"); cbn [bind]; [|discriminate].
  intros E. injection E as <-. reflexivity.
Qed.

Lemma freq_range_is_fixed_witness :
  exists d,
    get_pcen_melspec_config (get_base_config []) = Ok d
    /\ call_arg "freq_range" d = Some (VTuple [VInt 60; VInt 10000]).
Proof.
  eexists. split.
  - reflexivity.
  - apply (freq_range_is_fixed (get_base_config [])). reflexivity.
Defined.

(** ** The data pipelines *)

(** A pipeline spec holds references, not values: the spec built from any
    base config is the one built from the defaults. *)
Lemma train_pipeline_of_base (kwargs : BaseConfig) (mixin_prob : float) (dir : string) :
  get_supervised_train_pipeline (get_base_config kwargs) mixin_prob dir
  = get_supervised_train_pipeline base_defaults mixin_prob dir.
Proof.
  unfold get_supervised_train_pipeline.
  rewrite !(get_ref_base kwargs) by reflexivity. reflexivity.
Qed.

Lemma eval_pipeline_of_base (kwargs : BaseConfig) (dir : string) :
  get_supervised_eval_pipeline (get_base_config kwargs) dir
  = get_supervised_eval_pipeline base_defaults dir.
Proof.
  unfold get_supervised_eval_pipeline.
  rewrite !(get_ref_base kwargs) by reflexivity. reflexivity.
Qed.

(** C4: in the train pipeline the mix-in stage comes before the pad
    stage, the pad stage before the slice stage, the slice stage before
    the batch stage, the batch stage before the repeat stage, and the
    repeat stage is the last one; no stage kind occurs twice. *)
Theorem train_stage_order (kwargs : BaseConfig) (mixin_prob : float) (dir : string) :
  exists d i_mix i_pad i_slice i_batch i_repeat,
    get_supervised_train_pipeline (get_base_config kwargs) mixin_prob dir = Ok d
    /\ stage_index "pipeline.MixAudio" (pipeline_ops d) = Some i_mix
    /\ stage_index "pipeline.Pad" (pipeline_ops d) = Some i_pad
    /\ stage_index "pipeline.RandomSlice" (pipeline_ops d) = Some i_slice
    /\ stage_index "pipeline.Batch" (pipeline_ops d) = Some i_batch
    /\ stage_index "pipeline.Repeat" (pipeline_ops d) = Some i_repeat
    /\ (i_mix < i_pad)%nat /\ (i_pad < i_slice)%nat
    /\ (i_slice < i_batch)%nat /\ (i_batch < i_repeat)%nat
    /\ S i_repeat = List.length (pipeline_ops d)
    /\ NoDup (map stage_kind (pipeline_ops d)).
Proof.
  rewrite train_pipeline_of_base.
  eexists. exists 3%nat, 4%nat, 5%nat, 6%nat, 8%nat.
  split; [reflexivity|].
  repeat (split; [first [reflexivity | lia]|]).
  cbv [pipeline_ops lookup setitem call_arg callable_config String.eqb Ascii.eqb Bool.eqb
       map stage_kind].
  repeat constructor; simpl; intuition discriminate.
Qed.

(** C5: the eval pipeline is made of exactly six stages, none of them a
    repeat, shuffle, mix-in, random slice or random normalization stage;
    its pad stage has [random] false, its slice stage starts at 0.0 and
    its normalization stage has the one argument [target_gain], 0.2. *)
Theorem eval_pipeline_is_fixed (kwargs : BaseConfig) (dir : string) :
  exists d pad slice,
    get_supervised_eval_pipeline (get_base_config kwargs) dir = Ok d
    /\ map stage_kind (pipeline_ops d)
       = [ "pipeline.OnlyJaxTypes"; "pipeline.ConvertBirdTaxonomyLabels"; "pipeline.Pad";
           "pipeline.Slice"; "pipeline.Batch"; "pipeline.NormalizeAudio" ]
    /\ stage_index "pipeline.Repeat" (pipeline_ops d) = None
    /\ stage_index "pipeline.Shuffle" (pipeline_ops d) = None
    /\ stage_index "pipeline.MixAudio" (pipeline_ops d) = None
    /\ stage_index "pipeline.RandomSlice" (pipeline_ops d) = None
    /\ stage_index "pipeline.RandomNormalizeAudio" (pipeline_ops d) = None
    /\ stage "pipeline.Pad" (pipeline_ops d) = Some pad
    /\ call_arg "random" pad = Some (VBool false)
    /\ stage "pipeline.Slice" (pipeline_ops d) = Some slice
    /\ call_arg "start" slice = Some (VFloat 0.0)
    /\ stage "pipeline.NormalizeAudio" (pipeline_ops d)
       = Some (VCall "pipeline.NormalizeAudio" [("target_gain", VFloat 0.2)]).
Proof.
  rewrite eval_pipeline_of_base.
  do 3 eexists.
  split; [reflexivity|].
  repeat (split; [reflexivity|]). reflexivity.
Qed.

(** C10: the eval pipeline reads the split named [train], the very split
    of the train pipeline. *)
Theorem eval_split_is_train
  (kwargs : BaseConfig) (mixin_prob : float) (train_dir eval_dir : string) :
  exists train eval,
    get_supervised_train_pipeline (get_base_config kwargs) mixin_prob train_dir = Ok train
    /\ get_supervised_eval_pipeline (get_base_config kwargs) eval_dir = Ok eval
    /\ lookup "split" eval = Some (VStr "train")
    /\ lookup "split" train = lookup "split" eval.
Proof.
  rewrite train_pipeline_of_base, eval_pipeline_of_base.
  do 2 eexists. repeat split; reflexivity.
Qed.

(** ** Overriding the base config after composing *)

Lemma get_after_override (config : BaseConfig) (k : string) (v : literal) (f : string) :
  get (update [(k, v)] config) (Ref f)
  = if String.eqb f k then Ok v else get config (Ref f).
Proof.
  cbn [get]. unfold update. cbn [fold_left fst snd].
  rewrite lookup_setitem. destruct (String.eqb f k); reflexivity.
Qed.

Lemma get_defined (config : BaseConfig) (f : string) (l : literal) :
  lookup f config = Some l -> get config (Ref f) = Ok l.
Proof. cbn [get]. intros ->. reflexivity. Qed.

Ltac resolve_refs :=
  cbn [resolve_config resolve bind];
  rewrite ?get_after_override;
  cbn [String.eqb Ascii.eqb Bool.eqb];
  repeat match goal with
         | H : lookup ?f ?c = Some _ |- context [get ?c (Ref ?f)] =>
             rewrite (get_defined c f _ H)
         end;
  cbn [bind].

(** C6: the batch stage of both pipelines holds the reference to
    [batch_size] of the base config.  On a base config whose batch size is
    64, overriding it to 32 after the pipelines are composed makes both
    resolve their batch-stage argument to 32; without the override both
    resolve it to 64. *)
Theorem batch_size_override_reaches_both_pipelines
  (kwargs : BaseConfig) (mixin_prob : float) (train_dir eval_dir : string) :
  lookup "batch_size" (get_base_config kwargs) = Some (LInt 64) ->
  exists train eval train32 eval32 train64 eval64,
    get_supervised_train_pipeline (get_base_config kwargs) mixin_prob train_dir = Ok train
    /\ get_supervised_eval_pipeline (get_base_config kwargs) eval_dir = Ok eval
    /\ stage_arg "pipeline.Batch" "batch_size" train = Some (VRef (Ref "batch_size"))
    /\ stage_arg "pipeline.Batch" "batch_size" eval = Some (VRef (Ref "batch_size"))
    /\ resolve_config (update [("batch_size", LInt 32)] (get_base_config kwargs)) train
       = Ok train32
    /\ resolve_config (update [("batch_size", LInt 32)] (get_base_config kwargs)) eval
       = Ok eval32
    /\ stage_arg "pipeline.Batch" "batch_size" train32 = Some (VInt 32)
    /\ stage_arg "pipeline.Batch" "batch_size" eval32 = Some (VInt 32)
    /\ resolve_config (get_base_config kwargs) train = Ok train64
    /\ resolve_config (get_base_config kwargs) eval = Ok eval64
    /\ stage_arg "pipeline.Batch" "batch_size" train64 = Some (VInt 64)
    /\ stage_arg "pipeline.Batch" "batch_size" eval64 = Some (VInt 64).
Proof.
  intros Hbatch.
  rewrite train_pipeline_of_base, eval_pipeline_of_base.
  destruct (base_lookup kwargs "target_class_list" eq_refl) as [l1 H1].
  destruct (base_lookup kwargs "add_taxonomic_labels" eq_refl) as [l2 H2].
  destruct (base_lookup kwargs "train_window_size_s" eq_refl) as [l3 H3].
  destruct (base_lookup kwargs "eval_window_size_s" eq_refl) as [l4 H4].
  destruct (base_lookup kwargs "pad_mask" eq_refl) as [l5 H5].
  destruct (base_lookup kwargs "tfds_data_dir" eq_refl) as [l6 H6].
  set (base := get_base_config kwargs) in *. clearbody base.
  eexists _, _, _, _, _, _.
  split; [cbv; reflexivity|]. split; [cbv; reflexivity|].
  split; [reflexivity|]. split; [reflexivity|].
  split; [resolve_refs; reflexivity|]. split; [resolve_refs; reflexivity|].
  split; [reflexivity|]. split; [reflexivity|].
  split; [resolve_refs; reflexivity|]. split; [resolve_refs; reflexivity|].
  split; reflexivity.
Qed.

Lemma batch_size_override_reaches_both_pipelines_witness :
  exists train eval train32 eval32 train64 eval64,
    get_supervised_train_pipeline (get_base_config []) 0.5 "train_dir" = Ok train
    /\ get_supervised_eval_pipeline (get_base_config []) "eval_dir" = Ok eval
    /\ stage_arg "pipeline.Batch" "batch_size" train = Some (VRef (Ref "batch_size"))
    /\ stage_arg "pipeline.Batch" "batch_size" eval = Some (VRef (Ref "batch_size"))
    /\ resolve_config (update [("batch_size", LInt 32)] (get_base_config [])) train
       = Ok train32
    /\ resolve_config (update [("batch_size", LInt 32)] (get_base_config [])) eval
       = Ok eval32
    /\ stage_arg "pipeline.Batch" "batch_size" train32 = Some (VInt 32)
    /\ stage_arg "pipeline.Batch" "batch_size" eval32 = Some (VInt 32)
    /\ resolve_config (get_base_config []) train = Ok train64
    /\ resolve_config (get_base_config []) eval = Ok eval64
    /\ stage_arg "pipeline.Batch" "batch_size" train64 = Some (VInt 64)
    /\ stage_arg "pipeline.Batch" "batch_size" eval64 = Some (VInt 64).
Proof.
  apply (batch_size_override_reaches_both_pipelines [] 0.5 "train_dir" "eval_dir").
  reflexivity.
Defined.

(** ** The init config *)

(** C7: the [input_shape] of the init config is a tuple of one element,
    the reference [train_window_size_s * sample_rate_hz] into the base
    config; on a base config where the two are the integers [w] and [r] it
    resolves to the tuple of the one number [w * r].  The keyword
    arguments of the init config are any that leave [input_shape] alone. *)
Theorem input_shape_is_window_times_rate
  (kwargs : BaseConfig) (init_kwargs : ConfigDict) (w r : Z) :
  lookup "train_window_size_s" (get_base_config kwargs) = Some (LInt w) ->
  lookup "sample_rate_hz" (get_base_config kwargs) = Some (LInt r) ->
  last_binding "input_shape" init_kwargs = None ->
  exists init,
    get_base_init_config (get_base_config kwargs) init_kwargs = Ok init
    /\ lookup "input_shape" init
       = Some (VTuple [VRef (Mul (Ref "train_window_size_s") (Ref "sample_rate_hz"))])
    /\ resolve_field (get_base_config kwargs) init "input_shape"
       = Ok (VTuple [VInt (w * r)]).
Proof.
  intros Hw Hr Hkw. unfold get_base_init_config.
  rewrite !(get_ref_base kwargs) by reflexivity. cbn [bind].
  eexists. split; [reflexivity|].
  assert (L : forall d : ConfigDict,
             lookup "input_shape" (update init_kwargs d) = lookup "input_shape" d)
    by (intros d; rewrite lookup_update, Hkw; reflexivity).
  split.
  - rewrite L. reflexivity.
  - unfold resolve_field. rewrite L.
    cbn [lookup setitem String.eqb Ascii.eqb Bool.eqb].
    cbn [resolve get bind]. rewrite Hw, Hr. reflexivity.
Qed.

Lemma input_shape_is_window_times_rate_witness :
  exists init,
    get_base_init_config (get_base_config [("sample_rate_hz", LInt 16000)])
      [("learning_rate", VFloat 0.001)] = Ok init
    /\ lookup "input_shape" init
       = Some (VTuple [VRef (Mul (Ref "train_window_size_s") (Ref "sample_rate_hz"))])
    /\ resolve_field (get_base_config [("sample_rate_hz", LInt 16000)]) init "input_shape"
       = Ok (VTuple [VInt (5 * 16000)]).
Proof.
  apply (input_shape_is_window_times_rate
           [("sample_rate_hz", LInt 16000)] [("learning_rate", VFloat 0.001)] 5 16000);
    reflexivity.
Defined.

(** * Further properties of the builders *)

(** ** The base config: what the overrides leave alone *)

Section KeyFacts.
Context {A : Type}.
Implicit Types (d other : list (string * A)) (k : string) (v : A).

Lemma lookup_None_not_In k d : lookup k d = None -> ~ In k (keys d).
Proof.
  induction d as [|[k0 v0] d IH]; simpl; [tauto|].
  destruct (String.eqb_spec k k0) as [->|Hne]; [discriminate|].
  intros E [H|H]; [congruence|]. exact (IH E H).
Qed.

Lemma keys_setitem k v d :
  keys (setitem k v d)
  = (keys d ++ match lookup k d with Some _ => [] | None => [k] end)%list.
Proof.
  unfold keys.
  induction d as [|[k0 v0] d IH]; simpl; [reflexivity|].
  destruct (String.eqb_spec k k0) as [->|Hne]; simpl.
  - rewrite app_nil_r. reflexivity.
  - rewrite IH. reflexivity.
Qed.

Lemma NoDup_keys_setitem k v d : NoDup (keys d) -> NoDup (keys (setitem k v d)).
Proof.
  intros H. rewrite keys_setitem.
  destruct (lookup k d) eqn:E.
  - rewrite app_nil_r. exact H.
  - apply NoDup_app; [exact H|repeat constructor; simpl; tauto|].
    intros a Ha [<-|[]]. exact (lookup_None_not_In _ _ E Ha).
Qed.

Lemma keys_update other : forall d,
  exists extra, keys (update other d) = (keys d ++ extra)%list.
Proof.
  unfold update.
  induction other as [|[k v] other IH]; intros d; simpl.
  - exists []. rewrite app_nil_r. reflexivity.
  - destruct (IH (setitem k v d)) as [extra ->].
    rewrite keys_setitem, <- app_assoc. eexists. reflexivity.
Qed.

Lemma NoDup_keys_update other : forall d,
  NoDup (keys d) -> NoDup (keys (update other d)).
Proof.
  unfold update.
  induction other as [|[k v] other IH]; intros d H; simpl; [exact H|].
  apply IH, NoDup_keys_setitem, H.
Qed.
End KeyFacts.

(** X1: a field the keyword arguments do not mention has, in the config
    [get_base_config] returns, the value of the defaults (and is absent
    when it is no default). *)
Theorem untouched_fields_keep_defaults (kwargs : BaseConfig) (k : string) :
  last_binding k kwargs = None ->
  lookup k (get_base_config kwargs) = lookup k base_defaults.
Proof.
  intros H. unfold get_base_config. rewrite lookup_update, H. reflexivity.
Qed.

Lemma untouched_fields_keep_defaults_witness :
  lookup "sample_rate_hz" (get_base_config [("batch_size", LInt 8); ("seed", LInt 1)])
  = lookup "sample_rate_hz" base_defaults.
Proof.
  apply (untouched_fields_keep_defaults [("batch_size", LInt 8); ("seed", LInt 1)]).
  reflexivity.
Defined.

(** X2: whatever the keyword arguments, the config [get_base_config]
    returns names no field twice, and its first eleven fields are the
    defaults in the order the source assigns them; the fields the keyword
    arguments add come after. *)
Theorem base_config_fields_ordered (kwargs : BaseConfig) :
  NoDup (keys (get_base_config kwargs))
  /\ exists added,
      keys (get_base_config kwargs)
      = ([ "sample_rate_hz"; "train_window_size_s"; "eval_window_size_s"; "frame_rate_hz";
           "num_channels"; "batch_size"; "add_taxonomic_labels"; "target_class_list";
           "num_train_steps"; "pad_mask"; "tfds_data_dir" ] ++ added)%list
      /\ forall k, In k added -> base_field k = false /\ last_binding k kwargs <> None.
Proof.
  split.
  - apply NoDup_keys_update. unfold base_defaults.
    repeat apply NoDup_keys_setitem. constructor.
  - destruct (keys_update kwargs base_defaults) as [added E].
    exists added. split; [exact E|].
    intros k Hk.
    assert (Hnd : NoDup (keys (get_base_config kwargs))).
    { apply NoDup_keys_update. unfold base_defaults.
      repeat apply NoDup_keys_setitem. constructor. }
    assert (Hin : In k (keys (get_base_config kwargs))).
    { unfold get_base_config. rewrite E. apply in_or_app. right. exact Hk. }
    assert (Hb : base_field k = false).
    { unfold base_field. destruct (lookup k base_defaults) eqn:L; [|reflexivity].
      exfalso. unfold get_base_config in Hnd. rewrite E in Hnd.
      apply NoDup_app_remove_l in Hnd as Hadd.
      revert Hnd Hk L. clear. intros Hnd Hk L.
      assert (Hd : In k (keys base_defaults)).
      { clear -L. induction base_defaults as [|[k0 v0] d IH]; simpl in *; [discriminate|].
        destruct (String.eqb_spec k k0) as [->|_]; [left; reflexivity|right; auto]. }
      revert Hnd Hd Hk. generalize (keys base_defaults). clear.
      induction l as [|a l IH]; simpl; intros Hnd Hd Hk; [contradiction|].
      inversion Hnd as [|? ? Hna Hnd']; subst.
      destruct Hd as [->|Hd].
      - apply Hna. apply in_or_app. right. exact Hk.
      - exact (IH Hnd' Hd Hk). }
    split; [exact Hb|].
    intros Hl.
    pose proof (untouched_lookup := lookup_update k kwargs base_defaults).
    rewrite Hl in untouched_lookup.
    unfold base_field in Hb.
    destruct (lookup k base_defaults) eqn:L; [discriminate|].
    apply (lookup_None_not_In k (update kwargs base_defaults)); assumption.
Qed.

(** ** The transform size *)

Ltac case_select_nfft :=
  unfold select_nfft;
  repeat match goal with
         | |- context [?a <=? ?b] => destruct (Z.leb_spec a b)
         | |- context [?a <? ?b] => destruct (Z.ltb_spec a b)
         end; cbn [andb].

(** X3: a transform size the chain of comparisons returns is a power of
    two between 2^8 and 2^12 that holds the kernel, and above a kernel
    size of 256 it is less than twice the kernel size: the kernel fills
    more than half of the transform. *)
Theorem nfft_is_tight_power_of_two (kernel_size nfft : Z) :
  select_nfft kernel_size = Ok nfft ->
  exists e, 8 <= e <= 12 /\ nfft = 2 ^ e
            /\ kernel_size <= nfft
            /\ (256 < kernel_size -> nfft < 2 * kernel_size).
Proof.
  case_select_nfft; intros E; try discriminate; injection E as <-;
    try lia;
    first [ exists 8; split; [lia|]; split; [reflexivity|]; lia
          | exists 9; split; [lia|]; split; [reflexivity|]; lia
          | exists 10; split; [lia|]; split; [reflexivity|]; lia
          | exists 11; split; [lia|]; split; [reflexivity|]; lia
          | exists 12; split; [lia|]; split; [reflexivity|]; lia ].
Qed.

Lemma nfft_is_tight_power_of_two_witness :
  exists e, 8 <= e <= 12 /\ 1024 = 2 ^ e /\ 640 <= 1024 /\ (256 < 640 -> 1024 < 2 * 640).
Proof.
  apply (nfft_is_tight_power_of_two 640 1024). reflexivity.
Defined.

(** X4: the chain of comparisons is monotone and its domain is closed
    downwards: when a kernel size gets a transform size, every smaller
    kernel size gets one too, and it is no larger. *)
Theorem nfft_is_monotone (k1 k2 n2 : Z) :
  k1 <= k2 ->
  select_nfft k2 = Ok n2 ->
  exists n1, select_nfft k1 = Ok n1 /\ n1 <= n2.
Proof.
  intros Hle H2.
  assert (Hk2 : k2 <= 4096).
  { destruct (Z_le_gt_dec k2 4096) as [H|H]; [exact H|].
    rewrite select_nfft_large in H2 by lia. discriminate. }
  destruct (select_nfft_small k1 ltac:(lia)) as (n1 & E1 & Hin1 & Hk1 & Hleast1).
  destruct (select_nfft_small k2 Hk2) as (n2' & E2 & Hin2 & Hk2' & _).
  rewrite E2 in H2. injection H2 as ->.
  exists n1. split; [exact E1|]. apply Hleast1; [exact Hin2|lia].
Qed.

Lemma nfft_is_monotone_witness :
  exists n1, select_nfft 300 = Ok n1 /\ n1 <= 2048.
Proof.
  apply (nfft_is_monotone 300 1500 2048); [lia|reflexivity].
Defined.

(** ** The frontend descriptor *)

(** X5: with a positive frame rate the derivation returns a descriptor
    exactly when the sample rate is below 2049 times the frame rate; zero
    and negative sample rates are accepted. *)
Theorem pcen_accepts_below_2049_frames (kwargs : BaseConfig) (sr fr : Z) :
  lookup "sample_rate_hz" (get_base_config kwargs) = Some (LInt sr) ->
  lookup "frame_rate_hz" (get_base_config kwargs) = Some (LInt fr) ->
  0 < fr ->
  (exists d, get_pcen_melspec_config (get_base_config kwargs) = Ok d) <-> sr < 2049 * fr.
Proof.
  intros Hsr Hfr Hpos.
  rewrite (get_pcen_melspec_config_eq kwargs sr fr Hsr Hfr) by lia.
  pose proof (Z.div_mod sr fr ltac:(lia)) as Hdm.
  pose proof (Z.mod_pos_bound sr fr Hpos) as Hm.
  split.
  - intros [d Hd].
    destruct (Z_le_gt_dec (2 * (sr / fr)) 4096) as [Hk|Hk]; [nia|].
    rewrite select_nfft_large in Hd by lia. discriminate.
  - intros Hlt.
    destruct (select_nfft_small (2 * (sr / fr)) ltac:(nia)) as (n & -> & _).
    cbn [bind]. eexists. reflexivity.
Qed.

Lemma pcen_accepts_below_2049_frames_witness :
  (exists d, get_pcen_melspec_config (get_base_config [("sample_rate_hz", LInt 204899)]) = Ok d)
  <-> 204899 < 2049 * 100.
Proof.
  apply (pcen_accepts_below_2049_frames [("sample_rate_hz", LInt 204899)] 204899 100).
  - reflexivity.
  - reflexivity.
  - lia.
Defined.

(** X6: a frame rate of zero stops the derivation with the division error
    of the stride, whatever the integer sample rate. *)
Theorem pcen_zero_frame_rate (kwargs : BaseConfig) (sr : Z) :
  lookup "sample_rate_hz" (get_base_config kwargs) = Some (LInt sr) ->
  lookup "frame_rate_hz" (get_base_config kwargs) = Some (LInt 0) ->
  get_pcen_melspec_config (get_base_config kwargs) = Raise ZeroDivisionError.
Proof.
  intros Hsr Hfr. unfold get_pcen_melspec_config.
  rewrite !(get_ref_base kwargs) by reflexivity.
  cbn [bind]. unfold get_int. cbn [get bind].
  rewrite Hsr, Hfr. reflexivity.
Qed.

Lemma pcen_zero_frame_rate_witness :
  get_pcen_melspec_config (get_base_config [("frame_rate_hz", LInt 0)])
  = Raise ZeroDivisionError.
Proof.
  apply (pcen_zero_frame_rate [("frame_rate_hz", LInt 0)] 32000); reflexivity.
Defined.

(** X7: the stride and the kernel size of a descriptor are references and
    follow a frame rate overridden after the descriptor is built; the
    transform size is a plain number and stays the one chosen for the
    frame rate at the time of the build. *)
Theorem kernel_follows_frame_rate_nfft_does_not
  (kwargs : BaseConfig) (sr fr fr' : Z) (d : value) :
  lookup "sample_rate_hz" (get_base_config kwargs) = Some (LInt sr) ->
  lookup "frame_rate_hz" (get_base_config kwargs) = Some (LInt fr) ->
  fr <> 0 ->
  fr' <> 0 ->
  get_pcen_melspec_config (get_base_config kwargs) = Ok d ->
  int_arg (update [("frame_rate_hz", LInt fr')] (get_base_config kwargs)) "stride" d
  = Some (sr / fr')
  /\ int_arg (update [("frame_rate_hz", LInt fr')] (get_base_config kwargs)) "kernel_size" d
     = Some (2 * (sr / fr'))
  /\ exists nfft,
      int_arg (update [("frame_rate_hz", LInt fr')] (get_base_config kwargs)) "nfft" d
      = Some nfft
      /\ select_nfft (2 * (sr / fr)) = Ok nfft.
Proof.
  intros Hsr Hfr Hnz Hnz' Hd.
  rewrite (get_pcen_melspec_config_eq kwargs sr fr Hsr Hfr Hnz) in Hd.
  destruct (select_nfft (2 * (sr / fr))) as [n|e]; cbn [bind] in Hd; [|discriminate].
  injection Hd as <-.
  unfold int_arg. cbn [call_arg lookup String.eqb Ascii.eqb Bool.eqb].
  cbn [resolve get bind VInt].
  rewrite !lookup_update. cbn [last_binding String.eqb Ascii.eqb Bool.eqb].
  rewrite Hsr. cbn [bind py_floordiv].
  destruct (Z.eqb_spec fr' 0) as [E|_]; [contradiction|].
  cbn [bind py_mul].
  split; [reflexivity|]. split; [reflexivity|].
  exists n. split; reflexivity.
Qed.

Lemma kernel_follows_frame_rate_nfft_does_not_witness :
  exists d,
    get_pcen_melspec_config (get_base_config []) = Ok d
    /\ int_arg (update [("frame_rate_hz", LInt 10)] (get_base_config [])) "kernel_size" d
       = Some 6400
    /\ int_arg (update [("frame_rate_hz", LInt 10)] (get_base_config [])) "nfft" d
       = Some 1024.
Proof.
  eexists. split; [reflexivity|].
  destruct (kernel_follows_frame_rate_nfft_does_not [] 32000 100 10 _
              eq_refl eq_refl ltac:(discriminate) ltac:(discriminate) eq_refl)
    as (_ & Hk & n & Hn & _).
  split; [exact Hk|reflexivity].
Defined.



(** ** The pipelines *)


Ltac case_fields config :=
  repeat match goal with
         | |- context [lookup ?f config] => destruct (lookup f config) eqn:?
         end.

(** X10: the train pipeline is built exactly when the six fields it
    refers to are defined on the config, and when it is not built the
    error names a field of the six that is missing. *)
Theorem train_pipeline_needs_its_fields
  (config : BaseConfig) (mixin_prob : float) (dir : string) :
  ((exists d, get_supervised_train_pipeline config mixin_prob dir = Ok d)
   <-> forallb (defined config) train_pipeline_fields = true)
  /\ forall e,
      get_supervised_train_pipeline config mixin_prob dir = Raise e ->
      exists f, e = UnknownFieldError f /\ In f train_pipeline_fields
                /\ lookup f config = None.
Proof.
  unfold get_supervised_train_pipeline, get_ref, defined.
  cbn [forallb train_pipeline_fields].
  case_fields config; cbn [bind andb];
    (split;
     [ split; [ intros [d Hd]; first [reflexivity | discriminate]
              | intros H; first [discriminate | eexists; reflexivity] ]
     | intros e E;
       first [ discriminate
             | injection E as <-; eexists; split; [reflexivity|];
               split; [simpl; tauto | assumption] ] ]).
Qed.

(** X11: the same for the eval pipeline and its six fields. *)
Theorem eval_pipeline_needs_its_fields (config : BaseConfig) (dir : string) :
  ((exists d, get_supervised_eval_pipeline config dir = Ok d)
   <-> forallb (defined config) eval_pipeline_fields = true)
  /\ forall e,
      get_supervised_eval_pipeline config dir = Raise e ->
      exists f, e = UnknownFieldError f /\ In f eval_pipeline_fields
                /\ lookup f config = None.
Proof.
  unfold get_supervised_eval_pipeline, get_ref, defined.
  cbn [forallb eval_pipeline_fields].
  case_fields config; cbn [bind andb];
    (split;
     [ split; [ intros [d Hd]; first [reflexivity | discriminate]
              | intros H; first [discriminate | eexists; reflexivity] ]
     | intros e E;
       first [ discriminate
             | injection E as <-; eexists; split; [reflexivity|];
               split; [simpl; tauto | assumption] ] ]).
Qed.

(** X12: in each pipeline the pad stage and the slice stage take the same
    reference for their window, the train window in the train pipeline and
    the eval window in the eval pipeline; the label conversion stage and
    the batch stage are the same in both pipelines. *)
Theorem pad_and_slice_share_the_window
  (kwargs : BaseConfig) (mixin_prob : float) (train_dir eval_dir : string) :
  exists train eval,
    get_supervised_train_pipeline (get_base_config kwargs) mixin_prob train_dir = Ok train
    /\ get_supervised_eval_pipeline (get_base_config kwargs) eval_dir = Ok eval
    /\ stage_arg "pipeline.Pad" "pad_size" train = Some (VRef (Ref "train_window_size_s"))
    /\ stage_arg "pipeline.RandomSlice" "window_size" train
       = stage_arg "pipeline.Pad" "pad_size" train
    /\ stage_arg "pipeline.Pad" "pad_size" eval = Some (VRef (Ref "eval_window_size_s"))
    /\ stage_arg "pipeline.Slice" "window_size" eval
       = stage_arg "pipeline.Pad" "pad_size" eval
    /\ stage "pipeline.ConvertBirdTaxonomyLabels" (pipeline_ops train)
       = stage "pipeline.ConvertBirdTaxonomyLabels" (pipeline_ops eval)
    /\ stage "pipeline.Batch" (pipeline_ops train) = stage "pipeline.Batch" (pipeline_ops eval)
    /\ stage "pipeline.Batch" (pipeline_ops train) <> None.
Proof.
  rewrite train_pipeline_of_base, eval_pipeline_of_base.
  do 2 eexists.
  split; [reflexivity|]. split; [reflexivity|].
  repeat (split; [reflexivity|]). discriminate.
Qed.

(** X13: both pipelines of every base config resolve, the resolved specs
    hold no reference any more (the unresolved ones do), and resolution
    keeps the stages and their order. *)
Theorem pipelines_resolve_to_plain_values
  (kwargs : BaseConfig) (mixin_prob : float) (train_dir eval_dir : string) :
  exists train eval train' eval',
    get_supervised_train_pipeline (get_base_config kwargs) mixin_prob train_dir = Ok train
    /\ get_supervised_eval_pipeline (get_base_config kwargs) eval_dir = Ok eval
    /\ resolve_config (get_base_config kwargs) train = Ok train'
    /\ resolve_config (get_base_config kwargs) eval = Ok eval'
    /\ config_ref_free train = false /\ config_ref_free eval = false
    /\ config_ref_free train' = true /\ config_ref_free eval' = true
    /\ map stage_kind (pipeline_ops train') = map stage_kind (pipeline_ops train)
    /\ map stage_kind (pipeline_ops eval') = map stage_kind (pipeline_ops eval)
    /\ keys train' = keys train /\ keys eval' = keys eval.
Proof.
  rewrite train_pipeline_of_base, eval_pipeline_of_base.
  destruct (base_lookup kwargs "target_class_list" eq_refl) as [l1 H1].
  destruct (base_lookup kwargs "add_taxonomic_labels" eq_refl) as [l2 H2].
  destruct (base_lookup kwargs "train_window_size_s" eq_refl) as [l3 H3].
  destruct (base_lookup kwargs "eval_window_size_s" eq_refl) as [l4 H4].
  destruct (base_lookup kwargs "pad_mask" eq_refl) as [l5 H5].
  destruct (base_lookup kwargs "tfds_data_dir" eq_refl) as [l6 H6].
  destruct (base_lookup kwargs "batch_size" eq_refl) as [l7 H7].
  set (base := get_base_config kwargs) in *. clearbody base.
  eexists _, _, _, _.
  split; [cbv; reflexivity|]. split; [cbv; reflexivity|].
  split; [resolve_refs; reflexivity|]. split; [resolve_refs; reflexivity|].
  repeat (split; [reflexivity|]). reflexivity.
Qed.

(** ** The init, train and eval configs *)

(** X14: the train config and the eval config take their number of train
    steps from the one field of the base config: when their keyword
    arguments leave [num_train_steps] alone, both are built and both
    resolve it to the value the base config has. *)
Theorem train_and_eval_share_num_train_steps
  (kwargs : BaseConfig) (train_kwargs eval_kwargs : ConfigDict) :
  last_binding "num_train_steps" train_kwargs = None ->
  last_binding "num_train_steps" eval_kwargs = None ->
  exists train eval steps,
    get_base_train_config (get_base_config kwargs) train_kwargs = Ok train
    /\ get_base_eval_config (get_base_config kwargs) eval_kwargs = Ok eval
    /\ lookup "num_train_steps" (get_base_config kwargs) = Some steps
    /\ resolve_field (get_base_config kwargs) train "num_train_steps" = Ok (VLit steps)
    /\ resolve_field (get_base_config kwargs) eval "num_train_steps" = Ok (VLit steps).
Proof.
  intros Ht He. unfold get_base_train_config, get_base_eval_config.
  rewrite !(get_ref_base kwargs) by reflexivity. cbn [bind].
  destruct (base_lookup kwargs "num_train_steps" eq_refl) as [steps Hs].
  eexists _, _, steps.
  split; [reflexivity|]. split; [reflexivity|]. split; [exact Hs|].
  unfold resolve_field. rewrite !lookup_update, Ht, He.
  cbn [lookup setitem String.eqb Ascii.eqb Bool.eqb].
  cbn [resolve get bind]. rewrite Hs. split; reflexivity.
Qed.

Lemma train_and_eval_share_num_train_steps_witness :
  exists train eval steps,
    get_base_train_config (get_base_config [("num_train_steps", LInt 500)])
      [("log_every_steps", VInt 10)] = Ok train
    /\ get_base_eval_config (get_base_config [("num_train_steps", LInt 500)]) [] = Ok eval
    /\ lookup "num_train_steps" (get_base_config [("num_train_steps", LInt 500)]) = Some steps
    /\ resolve_field (get_base_config [("num_train_steps", LInt 500)]) train "num_train_steps"
       = Ok (VLit steps)
    /\ resolve_field (get_base_config [("num_train_steps", LInt 500)]) eval "num_train_steps"
       = Ok (VLit steps).
Proof.
  apply (train_and_eval_share_num_train_steps
           [("num_train_steps", LInt 500)] [("log_every_steps", VInt 10)] []);
    reflexivity.
Defined.

(** X15: the keyword arguments of the init, train and eval configs win
    over every field the builder sets, references into the base config
    included: on every base config the three builders succeed, and a
    field the keyword arguments give has the value they give it last. *)
Theorem derived_config_kwargs_win
  (kwargs : BaseConfig) (overrides : ConfigDict) (k : string) (v : value) :
  last_binding k overrides = Some v ->
  (exists c, get_base_init_config (get_base_config kwargs) overrides = Ok c
             /\ lookup k c = Some v)
  /\ (exists c, get_base_train_config (get_base_config kwargs) overrides = Ok c
                /\ lookup k c = Some v)
  /\ (exists c, get_base_eval_config (get_base_config kwargs) overrides = Ok c
                /\ lookup k c = Some v).
Proof.
  intros H.
  unfold get_base_init_config, get_base_train_config, get_base_eval_config.
  rewrite !(get_ref_base kwargs) by reflexivity. cbn [bind].
  repeat split; eexists; (split; [reflexivity|]); rewrite lookup_update, H; reflexivity.
Qed.

Lemma derived_config_kwargs_win_witness :
  (exists c, get_base_init_config (get_base_config [])
               [("input_shape", VTuple [VInt 80000])] = Ok c
             /\ lookup "input_shape" c = Some (VTuple [VInt 80000]))
  /\ (exists c, get_base_train_config (get_base_config [])
                  [("input_shape", VTuple [VInt 80000])] = Ok c
                /\ lookup "input_shape" c = Some (VTuple [VInt 80000]))
  /\ (exists c, get_base_eval_config (get_base_config [])
                  [("input_shape", VTuple [VInt 80000])] = Ok c
                /\ lookup "input_shape" c = Some (VTuple [VInt 80000])).
Proof.
  apply (derived_config_kwargs_win [] [("input_shape", VTuple [VInt 80000])]).
  reflexivity.
Defined.

(** X16: the init config takes its class list from the base config by
    reference and sets the learning rate and the seed itself: when the
    keyword arguments leave the three fields alone, [target_class_list]
    resolves to the value of the base config, [learning_rate] is 0.0001
    and [rng_seed] is 0, and the fields come in the order the source
    assigns them. *)
Theorem init_config_follows_class_list
  (kwargs : BaseConfig) (init_kwargs : ConfigDict) :
  last_binding "target_class_list" init_kwargs = None ->
  last_binding "learning_rate" init_kwargs = None ->
  last_binding "rng_seed" init_kwargs = None ->
  exists init classes added,
    get_base_init_config (get_base_config kwargs) init_kwargs = Ok init
    /\ lookup "target_class_list" (get_base_config kwargs) = Some classes
    /\ resolve_field (get_base_config kwargs) init "target_class_list" = Ok (VLit classes)
    /\ lookup "learning_rate" init = Some (VFloat 0.0001)
    /\ lookup "rng_seed" init = Some (VInt 0)
    /\ keys init
       = ([ "input_shape"; "learning_rate"; "rng_seed"; "target_class_list" ] ++ added)%list.
Proof.
  intros Hc Hl Hs. unfold get_base_init_config.
  rewrite !(get_ref_base kwargs) by reflexivity. cbn [bind].
  destruct (base_lookup kwargs "target_class_list" eq_refl) as [classes Hcl].
  match goal with
  | |- context [update init_kwargs ?d] =>
      destruct (keys_update init_kwargs d) as [added Hk]
  end.
  eexists _, classes, added.
  split; [reflexivity|]. split; [exact Hcl|].
  unfold resolve_field. rewrite !lookup_update, Hc, Hl, Hs.
  cbn [lookup setitem String.eqb Ascii.eqb Bool.eqb].
  cbn [resolve get bind]. rewrite Hcl.
  repeat (split; [reflexivity|]). exact Hk.
Qed.

Lemma init_config_follows_class_list_witness :
  exists init classes added,
    get_base_init_config (get_base_config [("target_class_list", LStr "caples")])
      [("optimizer", VStr "adam")] = Ok init
    /\ lookup "target_class_list" (get_base_config [("target_class_list", LStr "caples")])
       = Some classes
    /\ resolve_field (get_base_config [("target_class_list", LStr "caples")]) init
         "target_class_list" = Ok (VLit classes)
    /\ lookup "learning_rate" init = Some (VFloat 0.0001)
    /\ lookup "rng_seed" init = Some (VInt 0)
    /\ keys init
       = ([ "input_shape"; "learning_rate"; "rng_seed"; "target_class_list" ] ++ added)%list.
Proof.
  apply (init_config_follows_class_list
           [("target_class_list", LStr "caples")] [("optimizer", VStr "adam")]);
    reflexivity.
Defined.

(** X17: a descriptor the derivation returns resolves, against the base
    config it was built from, to plain values: the number of channels and
    the sample rate of the base config, the stride, twice the stride, the
    transform size, the frequency range and the scaling config with a
    convolution width of 256. *)
Theorem descriptor_resolves_to_plain_values
  (kwargs : BaseConfig) (sr fr : Z) (channels : literal) (d : value) :
  lookup "sample_rate_hz" (get_base_config kwargs) = Some (LInt sr) ->
  lookup "frame_rate_hz" (get_base_config kwargs) = Some (LInt fr) ->
  lookup "num_channels" (get_base_config kwargs) = Some channels ->
  fr <> 0 ->
  get_pcen_melspec_config (get_base_config kwargs) = Ok d ->
  exists nfft,
    select_nfft (2 * (sr / fr)) = Ok nfft
    /\ resolve (get_base_config kwargs) d
       = Ok (VCall "frontend.MelSpectrogram"
               [ ("features", VLit channels);
                 ("stride", VInt (sr / fr));
                 ("kernel_size", VInt (2 * (sr / fr)));
                 ("nfft", VInt nfft);
                 ("sample_rate", VInt sr);
                 ("freq_range", VTuple [VInt 60; VInt 10000]);
                 ("scaling_config",
                   VCall "frontend.PCENScalingConfig" [("conv_width", VInt 256)]) ]).
Proof.
  intros Hsr Hfr Hch Hnz Hd.
  rewrite (get_pcen_melspec_config_eq kwargs sr fr Hsr Hfr Hnz) in Hd.
  destruct (select_nfft (2 * (sr / fr))) as [n|e]; cbn [bind] in Hd; [|discriminate].
  injection Hd as <-. exists n. split; [reflexivity|].
  cbn [resolve get bind VInt]. rewrite Hsr, Hfr, Hch. cbn [bind py_floordiv].
  destruct (Z.eqb_spec fr 0) as [E|_]; [contradiction|].
  cbn [bind py_mul]. reflexivity.
Qed.

Lemma descriptor_resolves_to_plain_values_witness :
  exists nfft,
    select_nfft (2 * (32000 / 100)) = Ok nfft
    /\ resolve (get_base_config [])
         (VCall "frontend.MelSpectrogram"
            [ ("features", VRef (Ref "num_channels"));
              ("stride", VRef (FloorDiv (Ref "sample_rate_hz") (Ref "frame_rate_hz")));
              ("kernel_size",
                VRef (Mul (Lit 2) (FloorDiv (Ref "sample_rate_hz") (Ref "frame_rate_hz"))));
              ("nfft", VInt 1024);
              ("sample_rate", VRef (Ref "sample_rate_hz"));
              ("freq_range", VTuple [VInt 60; VInt 10000]);
              ("scaling_config",
                VCall "frontend.PCENScalingConfig" [("conv_width", VInt 256)]) ])
       = Ok (VCall "frontend.MelSpectrogram"
               [ ("features", VLit (LInt 160));
                 ("stride", VInt (32000 / 100));
                 ("kernel_size", VInt (2 * (32000 / 100)));
                 ("nfft", VInt nfft);
                 ("sample_rate", VInt 32000);
                 ("freq_range", VTuple [VInt 60; VInt 10000]);
                 ("scaling_config",
                   VCall "frontend.PCENScalingConfig" [("conv_width", VInt 256)]) ]).
Proof.
  apply (descriptor_resolves_to_plain_values [] 32000 100 (LInt 160));
    first [reflexivity | discriminate].
Defined.
